(** * The credential service of the acquisitions API

    A shallow embedding of the authentication service
    ([hashedPassword], [comparePassword], [createUser], [authenticateUser])
    together with the properties of its specification.

    The service is asynchronous JavaScript that talks to three collaborators:
    the relational store ([db], through the query builder), the [bcrypt]
    library and the [logger].  Promises are modelled by a state-and-exception
    monad over a [World] that holds the store and the trace of every call made
    to a collaborator; a rejected promise is a [Throw]. *)

From Stdlib Require Import ZArith.
From stdpp Require Import gmap strings list.


(** ** JavaScript values and errors *)

(** An error object, as far as the service and its callers can observe it:
    the [name] and [message] properties. *)
Record JsError : Type := mkJsError {
  err_name : string;
  err_message : string
}.

(** [new Error(msg)] *)
Definition Error (msg : string) : JsError := mkJsError "Error" msg.

(** The [TypeError] the engine raises on a property read of [undefined]. *)
Definition TypeError (msg : string) : JsError := mkJsError "TypeError" msg.

(** [Error.prototype.toString]: what [String(err)] and a template literal
    produce for an error object. *)
Definition error_toString (e : JsError) : string :=
  if String.eqb (err_name e) "" then err_message e
  else if String.eqb (err_message e) "" then err_name e
  else err_name e +:+ ": " +:+ err_message e.

(** The primitive values that occur in the objects the service returns. *)
Inductive JsVal : Type :=
  | JNum (n : Z)
  | JStr (s : string)
  | JDate (t : Z).

(** A plain JavaScript object: a finite map from property names to values. *)
Abbreviation JsObject := (gmap string JsVal).

(** ** The users table *)

(** A row of the [users] table. *)
Record UserRow : Type := mkUserRow {
  u_id : Z;
  u_name : string;
  u_email : string;
  u_password : string;
  u_role : string;
  u_created_at : Z;
  u_updated_at : Z
}.

(** The object handed to [.values(...)] on insert. *)
Record NewUser : Type := mkNewUser {
  v_name : string;
  v_email : string;
  v_password : string;
  v_role : string
}.

(** ** Collaborators *)

(** The two queries the service issues against the store.
    [select_users_by_email d e] is
    [db.select().from(users).where(eq(users.email, e)).limit(1)];
    [insert_user d v] is [db.insert(users).values(v).returning(...)], which
    yields the inserted rows and the store after the insert.  Either may
    reject with an error of the store's own. *)
Class Store (Db : Type) : Type := {
  select_users_by_email : Db -> string -> JsError + list UserRow;
  insert_user : Db -> NewUser -> JsError + (list UserRow * Db)
}.

(** The [bcrypt] library: [bcrypt.hash(data, rounds)] and
    [bcrypt.compare(data, encrypted)], both fallible. *)
Class Bcrypt : Type := {
  bcrypt_hash : string -> Z -> JsError + string;
  bcrypt_compare : string -> string -> JsError + bool
}.

(** ** Effects *)

(** Every call to a collaborator leaves an event in the trace. *)
Inductive Event : Type :=
  | EvSelect (email : string)
  | EvInsert (v : NewUser)
  | EvHash (password : string) (rounds : Z)
  | EvCompare (password hashed : string)
  | EvLogInfo (msg : string)
  | EvLogError (msg : string).

Record World (Db : Type) : Type := mkWorld {
  w_db : Db;
  w_trace : list Event
}.
Arguments mkWorld {Db} _ _.
Arguments w_db {Db} _.
Arguments w_trace {Db} _.

(** A settled promise: fulfilled with a value or rejected with an error. *)
Inductive Outcome (A : Type) : Type :=
  | Return (a : A)
  | Throw (e : JsError).
Arguments Return {A} _.
Arguments Throw {A} _.

(** An asynchronous computation over the world. *)
Definition Async (Db A : Type) : Type := World Db -> Outcome A * World Db.

Section Monad.
Context {Db : Type}.

Definition ret {A} (a : A) : Async Db A := fun w => (Return a, w).

Definition throw {A} (e : JsError) : Async Db A := fun w => (Throw e, w).

Definition bind {A B} (m : Async Db A) (k : A -> Async Db B) : Async Db B :=
  fun w =>
    match m w with
    | (Return a, w') => k a w'
    | (Throw e, w') => (Throw e, w')
    end.

(** [try { m } catch (err) { h err }] *)
Definition try_catch {A} (m : Async Db A) (h : JsError -> Async Db A)
  : Async Db A :=
  fun w =>
    match m w with
    | (Return a, w') => (Return a, w')
    | (Throw e, w') => h e w'
    end.

Definition emit (ev : Event) : Async Db unit :=
  fun w => (Return tt, mkWorld (w_db w) (w_trace w ++ [ev])).
End Monad.

Notation "'let!' x ':=' m 'in' k" := (bind m (fun x => k))
  (at level 10, x name, m at level 100, k at level 200).
Notation "'do!' m 'in' k" := (bind m (fun _ => k))
  (at level 10, m at level 100, k at level 200).

(** ** The service *)

(** The object destructured by [createUser]; [arg_role = None] is a call
    that leaves [role] out. *)
Record CreateUserArgs : Type := mkCreateUserArgs {
  arg_name : string;
  arg_email : string;
  arg_password : string;
  arg_role : option string
}.

(** The object destructured by [authenticateUser]. *)
Record Credentials : Type := mkCredentials {
  cred_email : string;
  cred_password : string
}.

Definition of_library {A} (r : JsError + A) : Outcome A :=
  match r with
  | inl e => Throw e
  | inr a => Return a
  end.

Section Service.
Context {Db : Type} {S : Store Db} {B : Bcrypt}.

(** *** Calls to the collaborators *)

Definition db_select (email : string) : Async Db (list UserRow) :=
  fun w =>
    (of_library (select_users_by_email (w_db w) email),
     mkWorld (w_db w) (w_trace w ++ [EvSelect email])).

Definition db_insert (v : NewUser) : Async Db (list UserRow) :=
  fun w =>
    let tr := w_trace w ++ [EvInsert v] in
    match insert_user (w_db w) v with
    | inl e => (Throw e, mkWorld (w_db w) tr)
    | inr (rs, d) => (Return rs, mkWorld d tr)
    end.

Definition bcrypt_hash_call (password : string) (rounds : Z)
  : Async Db string :=
  fun w =>
    (of_library (bcrypt_hash password rounds),
     mkWorld (w_db w) (w_trace w ++ [EvHash password rounds])).

Definition bcrypt_compare_call (password hashed : string)
  : Async Db bool :=
  fun w =>
    (of_library (bcrypt_compare password hashed),
     mkWorld (w_db w) (w_trace w ++ [EvCompare password hashed])).

Definition logger_info (msg : string) : Async Db unit := emit (EvLogInfo msg).
Definition logger_error (msg : string) : Async Db unit := emit (EvLogError msg).

(** *** hashedPassword *)
Definition hashedPassword (password : string) : Async Db string :=
  try_catch
    (bcrypt_hash_call password 10)
    (fun e =>
       do! logger_error ("Error hashing the password " +:+ error_toString e) in
       throw (Error "Error hashing the password")).

(** *** comparePassword *)
Definition comparePassword (password hashed : string) : Async Db bool :=
  try_catch
    (bcrypt_compare_call password hashed)
    (fun e =>
       do! logger_error ("Error comparing passwords: " +:+ error_toString e) in
       throw (Error "Error comparing passwords")).

(** The column selection passed to [.returning(...)] in [createUser]. *)
Definition returning (r : UserRow) : JsObject :=
  {[ "id" := JNum (u_id r);
     "name" := JStr (u_name r);
     "email" := JStr (u_email r);
     "role" := JStr (u_role r);
     "created_at" := JDate (u_created_at r) ]}.

(** *** createUser

    [role] defaults to ['user'] when the caller leaves it out.  The array
    returned by the insert is destructured as [[newUser]]; on an empty array
    [newUser] is [undefined] and reading [newUser.email] raises a
    [TypeError].  [newUser.email] is the [email] column of the row.
    [createUser_try] is the body of the [try] block and [createUser_catch]
    the [catch] block. *)
Definition createUser_try (a : CreateUserArgs) : Async Db JsObject :=
  let name := arg_name a in
  let email := arg_email a in
  let password := arg_password a in
  let role := default "user" (arg_role a) in
  let! existingUser := db_select email in
  if (0 <? length existingUser)%nat
  then throw (Error "User with this email already exists")
  else
    let! password_hash := hashedPassword password in
    let! inserted := db_insert (mkNewUser name email password_hash role) in
    match inserted with
    | [] =>
        throw (TypeError
                 "Cannot read properties of undefined (reading 'email')")
    | row :: _ =>
        let newUser := returning row in
        do! logger_info
              ("User " +:+ u_email row +:+ " created successfully.") in
        ret newUser
    end.

Definition createUser_catch (err : JsError) : Async Db JsObject :=
  do! logger_error ("Error creating user: " +:+ error_toString err) in
  throw (Error (error_toString err)).

Definition createUser (a : CreateUserArgs) : Async Db JsObject :=
  try_catch (createUser_try a) createUser_catch.

(** *** authenticateUser

    The array returned by the lookup is destructured as [[user]]; [!user]
    holds exactly when it is empty. *)
Definition authenticateUser_try (c : Credentials) : Async Db JsObject :=
  let email := cred_email c in
  let password := cred_password c in
  let! found := db_select email in
  match found with
  | [] => throw (Error "Invalid email or password")
  | user :: _ =>
      let! isPasswordValid := comparePassword password (u_password user) in
      if negb isPasswordValid
      then throw (Error "Invalid email or password")
      else
        do! logger_info
              ("User " +:+ u_email user +:+ " authenticated successfully.") in
        ret ({[ "id" := JNum (u_id user);
                "name" := JStr (u_name user);
                "email" := JStr (u_email user);
                "role" := JStr (u_role user);
                "created_at" := JDate (u_created_at user) ]} : JsObject)
  end.

Definition authenticateUser_catch (err : JsError) : Async Db JsObject :=
  do! logger_error ("Error authenticating user: " +:+ err_message err) in
  throw err.

Definition authenticateUser (c : Credentials) : Async Db JsObject :=
  try_catch (authenticateUser_try c) authenticateUser_catch.

(** The ways the [try] block of [createUser] can fail, each with the error
    it raises. *)
Inductive createUser_failure (a : CreateUserArgs) (d : Db) : JsError -> Prop :=
  | fail_lookup f :
      select_users_by_email d (arg_email a) = inl f ->
      createUser_failure a d f
  | fail_duplicate r rs :
      select_users_by_email d (arg_email a) = inr (r :: rs) ->
      createUser_failure a d (Error "User with this email already exists")
  | fail_hashing f :
      select_users_by_email d (arg_email a) = inr [] ->
      bcrypt_hash (arg_password a) 10 = inl f ->
      createUser_failure a d (Error "Error hashing the password")
  | fail_insert h f :
      select_users_by_email d (arg_email a) = inr [] ->
      bcrypt_hash (arg_password a) 10 = inr h ->
      insert_user d
        (mkNewUser (arg_name a) (arg_email a) h (default "user" (arg_role a)))
        = inl f ->
      createUser_failure a d f
  | fail_no_row h d' :
      select_users_by_email d (arg_email a) = inr [] ->
      bcrypt_hash (arg_password a) 10 = inr h ->
      insert_user d
        (mkNewUser (arg_name a) (arg_email a) h (default "user" (arg_role a)))
        = inr ([], d') ->
      createUser_failure a d
        (TypeError "Cannot read properties of undefined (reading 'email')").

End Service.

(** ** Traces and the store contract *)

(** Counting calls in a trace. *)
Definition is_hash (ev : Event) : bool :=
  match ev with EvHash _ _ => true | _ => false end.

Definition is_insert (ev : Event) : bool :=
  match ev with EvInsert _ => true | _ => false end.

Definition hash_calls (tr : list Event) : nat :=
  length (List.filter is_hash tr).

Definition insert_calls (tr : list Event) : nat :=
  length (List.filter is_insert tr).

Definition is_compare (ev : Event) : bool :=
  match ev with EvCompare _ _ => true | _ => false end.


(** The events a run added to the trace: what [w'] has beyond [w]. *)
Definition new_events {Db : Type} (w w' : World Db) : list Event :=
  drop (length (w_trace w)) (w_trace w').

(** What the service expects of a working store: a successful insert yields
    exactly the row it stored, carrying the values it was given, and that row
    is what a lookup by its email finds afterwards. *)
Definition StoreContract {Db : Type} (S : Store Db) : Prop :=
  forall d v rs d',
    insert_user d v = inr (rs, d') ->
    exists r,
      rs = [r] /\
      u_name r = v_name v /\ u_email r = v_email v /\
      u_password r = v_password v /\ u_role r = v_role v /\
      select_users_by_email d' (v_email v) = inr [r].

(** ** A store and a hashing library to run the service on *)

(** Modelled from the spec: the store client ([#config/database.js]) and the
    table definition ([#models/user.model.js]) are imported by the service but
    are not among the sources.  The spec describes the store as durable keyed
    storage with select-by-equality (exact match, with a limit) and insert,
    which assigns [id] and the two timestamps, enforces uniqueness of [email]
    and raises a conflict error on violation. *)
Record MemDb : Type := mkMemDb {
  rows : list UserRow;
  next_id : Z;
  clock : Z
}.

Definition with_email (e : string) (rs : list UserRow) : list UserRow :=
  filter (fun r => u_email r = e) rs.

Definition mem_select (d : MemDb) (e : string) : JsError + list UserRow :=
  inr (take 1 (with_email e (rows d))).

Definition unique_violation : JsError :=
  mkJsError "StoreError" "duplicate key value violates unique constraint".

Definition mem_insert (d : MemDb) (v : NewUser)
  : JsError + (list UserRow * MemDb) :=
  match with_email (v_email v) (rows d) with
  | _ :: _ => inl unique_violation
  | [] =>
      let r := mkUserRow (next_id d) (v_name v) (v_email v) (v_password v)
                 (v_role v) (clock d) (clock d) in
      inr ([r], mkMemDb (rows d ++ [r]) (next_id d + 1) (clock d + 1))
  end.

Definition mem_store : Store MemDb :=
  {| select_users_by_email := mem_select; insert_user := mem_insert |}.

(** The same store while its inserts are failing with error [f]
    (a lost connection, a conflict detected late). *)
Definition insert_failing (f : JsError) : Store MemDb :=
  {| select_users_by_email := mem_select;
     insert_user := fun _ _ => inl f |}.

(** The same store while every query is failing with error [f]. *)
Definition store_down (f : JsError) : Store MemDb :=
  {| select_users_by_email := fun _ _ => inl f;
     insert_user := fun _ _ => inl f |}.

(** A stand-in for the hashing library, enough to run the service: the digest
    is an injective function of the plaintext and the comparison recomputes
    it. *)
Definition digest (p : string) : string := "$2b$10$" +:+ p.

Definition plain_bcrypt : Bcrypt :=
  {| bcrypt_hash := fun p _ => inr (digest p);
     bcrypt_compare := fun p h => inr (String.eqb (digest p) h) |}.

(** The library while it is failing with error [f]. *)
Definition failing_bcrypt (f : JsError) : Bcrypt :=
  {| bcrypt_hash := fun _ _ => inl f;
     bcrypt_compare := fun _ _ => inl f |}.

Definition empty_db : MemDb := mkMemDb [] 1 1000.
Definition fresh_world : World MemDb := mkWorld empty_db [].

Definition john : CreateUserArgs :=
  mkCreateUserArgs "John Doe" "john@example.com" "securePass123" None.

Definition john_row : UserRow :=
  mkUserRow 1 "John Doe" "john@example.com" (digest "securePass123") "user"
    1000 1000.

(** The world after John has signed up, with an empty trace. *)
Definition john_world : World MemDb := mkWorld (mkMemDb [john_row] 2 1001) [].


Definition john_credentials : Credentials :=
  mkCredentials "john@example.com" "securePass123".

Definition ada : CreateUserArgs :=
  mkCreateUserArgs "Ada" "ada@example.com" "analytical1" (Some "admin").

Definition ada_row : UserRow :=
  mkUserRow 1 "Ada" "ada@example.com" (digest "analytical1") "admin"
    1000 1000.

(** A caller that passes an email it has not normalized. *)
Definition foo : CreateUserArgs :=
  mkCreateUserArgs "Foo" "Foo@Bar.com " "secret99" None.

Definition lost_connection : JsError :=
  mkJsError "StoreError" "connection terminated unexpectedly".

Definition library_fault : JsError :=
  Error "data and hash arguments required".

Abbreviation run_create S B a w := (createUser (S:=S) (B:=B) a w).
Abbreviation run_auth S B c w := (authenticateUser (S:=S) (B:=B) c w).

(** ** The request-protection client

    The options object passed to [arcjet(...)] when the module is loaded.  It
    reads two variables of the process environment, either of which may be
    unset ([undefined]). *)

Record ProcessEnv : Type := mkProcessEnv {
  ARCJET_KEY : option string;
  NODE_ENV : option string
}.

Inductive ArcjetMode : Type := LIVE | DRY_RUN.

(** The rule constructors the module imports from the library;
    [slidingWindow] takes an interval and a maximum. *)
Inductive ArcjetRule : Type :=
  | shield (mode : ArcjetMode)
  | detectBot (mode : ArcjetMode) (allow : list string)
  | slidingWindow (mode : ArcjetMode) (interval : string) (max : Z).

Record ArcjetOptions : Type := mkArcjetOptions {
  aj_key : option string;
  aj_characteristics : list string;
  aj_rules : list ArcjetRule
}.

(** [x === 'production'] for a value that is a string or [undefined]. *)
Definition strict_eq_string (x : option string) (s : string) : bool :=
  match x with
  | Some y => String.eqb y s
  | None => false
  end.

Definition aj (env : ProcessEnv) : ArcjetOptions :=
  {| aj_key := ARCJET_KEY env;
     aj_characteristics := ["ip.src"];
     aj_rules :=
       [ shield LIVE;
         detectBot
           (if strict_eq_string (NODE_ENV env) "production"
            then LIVE else DRY_RUN)
           ["CATEGORY:SEARCH_ENGINE"; "CATEGORY:PREVIEW"; "CATEGORY:MONITOR"]
       ] |}.

Definition is_rate_limit (r : ArcjetRule) : bool :=
  match r with slidingWindow _ _ _ => true | _ => false end.

(** ** Proof automation *)

Ltac unfold_service :=
  unfold createUser, createUser_try, createUser_catch,
    authenticateUser, authenticateUser_try, authenticateUser_catch,
    hashedPassword, comparePassword, try_catch, bind,
    db_select, db_insert, bcrypt_hash_call, bcrypt_compare_call,
    logger_info, logger_error, emit, throw, ret, of_library in *;
  cbn [w_db w_trace fst snd] in *.

(** Reduce the events a run added to an explicit list. *)
Ltac settle_trace :=
  unfold new_events; simpl;
  rewrite <- ?app_assoc; simpl; rewrite ?drop_app_length; simpl.

(** ** Auxiliary facts *)

Lemma string_length_app (s t : string) :
  String.length (s +:+ t) = String.length s + String.length t.
Proof. induction s as [|c s IH]; simpl; [reflexivity | now rewrite IH]. Qed.

(** The string conversion of a named error is never its bare message. *)
Lemma error_toString_not_message (e : JsError) :
  err_name e ≠ "" -> error_toString e ≠ err_message e.
Proof.
  intros Hname. unfold error_toString.
  destruct (String.eqb_spec (err_name e) "") as [E|_]; [contradiction|].
  destruct (String.eqb_spec (err_message e) "") as [E|_]; [congruence|].
  intros Heq. apply (f_equal String.length) in Heq.
  rewrite !string_length_app in Heq. simpl in Heq. lia.
Qed.

Lemma mem_store_contract : StoreContract mem_store.
Proof.
  intros d v rs d' Hins. simpl in Hins. unfold mem_insert in Hins.
  destruct (with_email (v_email v) (rows d)) as [|x xs] eqn:Hnone;
    [|discriminate].
  injection Hins as <- <-. eexists. split; [reflexivity|].
  simpl. repeat split.
  unfold mem_select, with_email in *. simpl.
  rewrite filter_app, Hnone. simpl.
  rewrite filter_cons_True by reflexivity. reflexivity.
Qed.

Section Properties.
Context {Db : Type} (S : Store Db) (B : Bcrypt).

(** The wrappers add nothing to a library call that succeeds. *)
Lemma hashedPassword_ok (p h : string) (w : World Db) :
  bcrypt_hash p 10 = inr h ->
  hashedPassword p w =
    (Return h, mkWorld (w_db w) (w_trace w ++ [EvHash p 10])).
Proof. intros Hh. unfold_service. now rewrite Hh. Qed.

Lemma comparePassword_ok (p h : string) (b : bool) (w : World Db) :
  bcrypt_compare p h = inr b ->
  comparePassword p h w =
    (Return b, mkWorld (w_db w) (w_trace w ++ [EvCompare p h])).
Proof. intros Hc. unfold_service. now rewrite Hc. Qed.

(** A failing library call surfaces as the wrapper's fixed error. *)
Lemma hashedPassword_fails (p : string) (f : JsError) (w : World Db) :
  bcrypt_hash p 10 = inl f ->
  fst (hashedPassword p w) = Throw (Error "Error hashing the password").
Proof. intros Hh. unfold_service. now rewrite Hh. Qed.

Lemma comparePassword_fails (p h : string) (f : JsError) (w : World Db) :
  bcrypt_compare p h = inl f ->
  fst (comparePassword p h w) = Throw (Error "Error comparing passwords").
Proof. intros Hc. unfold_service. now rewrite Hc. Qed.

(** *** Duplicate rejection *)

(** C5: when the lookup finds a record with the given email, [createUser]
    fails; it makes no call to the hashing operation and issues no insert,
    and it leaves the store as it found it. *)
Theorem createUser_duplicate_untouched
  (a : CreateUserArgs) (w : World Db) (r : UserRow) (rs : list UserRow) :
  select_users_by_email (w_db w) (arg_email a) = inr (r :: rs) ->
  exists e w',
    createUser a w = (Throw e, w') /\
    w_db w' = w_db w /\
    hash_calls (w_trace w') = hash_calls (w_trace w) /\
    insert_calls (w_trace w') = insert_calls (w_trace w) /\
    w_trace w' =
      w_trace w ++
        [EvSelect (arg_email a);
         EvLogError
           "Error creating user: Error: User with this email already exists"].
Proof.
  intros Hsel. unfold_service. rewrite Hsel. simpl.
  eexists _, _. split; [reflexivity|]. cbn [w_db w_trace].
  rewrite <- !app_assoc. simpl.
  unfold hash_calls, insert_calls. rewrite !List.filter_app. simpl.
  rewrite !length_app. simpl. repeat split; lia.
Qed.

(** *** Authentication failures *)

(** C4: an unknown email and a known email with a password that does not
    verify are rejected with one and the same error. *)
Theorem authenticate_failures_indistinguishable
  (w : World Db) (e1 p1 e2 p2 : string) (u : UserRow) (rest : list UserRow) :
  select_users_by_email (w_db w) e1 = inr [] ->
  select_users_by_email (w_db w) e2 = inr (u :: rest) ->
  bcrypt_compare p2 (u_password u) = inr false ->
  fst (authenticateUser (mkCredentials e1 p1) w)
    = Throw (Error "Invalid email or password") /\
  fst (authenticateUser (mkCredentials e2 p2) w)
    = Throw (Error "Invalid email or password") /\
  fst (authenticateUser (mkCredentials e1 p1) w)
    = fst (authenticateUser (mkCredentials e2 p2) w).
Proof.
  intros Hnone Hsome Hcmp.
  assert (H1 : fst (authenticateUser (mkCredentials e1 p1) w)
               = Throw (Error "Invalid email or password")).
  { unfold_service. simpl. now rewrite Hnone. }
  assert (H2 : fst (authenticateUser (mkCredentials e2 p2) w)
               = Throw (Error "Invalid email or password")).
  { unfold_service. simpl. rewrite Hsome. simpl. now rewrite Hcmp. }
  repeat split; congruence.
Qed.

(** C3, as the code has it: [authenticateUser] rethrows whatever was raised
    inside it.  It returns a user record built from the row found, or fails
    with ['Invalid email or password'] (no row, or the password does not
    verify), with ['Error comparing passwords'] (the hashing library failed),
    or with the store's own error (the lookup failed). *)
Theorem authenticate_outcomes (c : Credentials) (w : World Db) :
  let out := fst (authenticateUser c w) in
  (exists user rest,
      select_users_by_email (w_db w) (cred_email c) = inr (user :: rest) /\
      bcrypt_compare (cred_password c) (u_password user) = inr true /\
      out = Return (returning user))
  \/ (out = Throw (Error "Invalid email or password") /\
      (select_users_by_email (w_db w) (cred_email c) = inr [] \/
       exists user rest,
         select_users_by_email (w_db w) (cred_email c) = inr (user :: rest) /\
         bcrypt_compare (cred_password c) (u_password user) = inr false))
  \/ (out = Throw (Error "Error comparing passwords") /\
      exists user rest f,
        select_users_by_email (w_db w) (cred_email c) = inr (user :: rest) /\
        bcrypt_compare (cred_password c) (u_password user) = inl f)
  \/ (exists f,
        select_users_by_email (w_db w) (cred_email c) = inl f /\
        out = Throw f).
Proof.
  unfold_service.
  destruct (select_users_by_email (w_db w) (cred_email c))
    as [f | [|user rest]] eqn:Hsel; simpl.
  - right; right; right. eauto.
  - right; left. eauto.
  - destruct (bcrypt_compare (cred_password c) (u_password user))
      as [f | [|]] eqn:Hcmp; simpl.
    + right; right; left. split; [reflexivity|]. eauto 6.
    + left. exists user, rest. eauto.
    + right; left. split; [reflexivity|]. right. eauto.
Qed.

(** *** Inversion of the two operations *)

(** A successful [createUser] went through every step: an empty lookup, a
    hash, an insert that returned a row, and the log line. *)
Lemma createUser_success_inv
  (a : CreateUserArgs) (w w' : World Db) (u : JsObject) :
  createUser a w = (Return u, w') ->
  exists h row rest d',
    select_users_by_email (w_db w) (arg_email a) = inr [] /\
    bcrypt_hash (arg_password a) 10 = inr h /\
    insert_user (w_db w)
      (mkNewUser (arg_name a) (arg_email a) h (default "user" (arg_role a)))
      = inr (row :: rest, d') /\
    u = returning row /\
    w' = mkWorld d'
           (w_trace w ++
              [EvSelect (arg_email a);
               EvHash (arg_password a) 10;
               EvInsert (mkNewUser (arg_name a) (arg_email a) h
                           (default "user" (arg_role a)));
               EvLogInfo ("User " +:+ u_email row
                          +:+ " created successfully.")]).
Proof.
  intros Hrun. unfold_service.
  destruct (select_users_by_email (w_db w) (arg_email a))
    as [f | [|x xs]] eqn:Hsel; simpl in Hrun; try discriminate.
  destruct (bcrypt_hash (arg_password a) 10) as [f | h] eqn:Hh;
    simpl in Hrun; try discriminate.
  destruct (insert_user (w_db w) _) as [f | [[|row rest] d']] eqn:Hins;
    simpl in Hrun; try discriminate.
  injection Hrun as <- <-.
  exists h, row, rest, d'. rewrite <- !app_assoc. simpl. auto.
Qed.

Lemma createUser_try_throws
  (a : CreateUserArgs) (w w1 : World Db) (inner : JsError) :
  createUser_try a w = (Throw inner, w1) ->
  createUser_failure a (w_db w) inner.
Proof.
  intros Hrun. unfold_service.
  destruct (select_users_by_email (w_db w) (arg_email a))
    as [f | [|x xs]] eqn:Hsel; simpl in Hrun.
  - injection Hrun as <- _. now apply fail_lookup.
  - destruct (bcrypt_hash (arg_password a) 10) as [f | h] eqn:Hh;
      simpl in Hrun.
    + injection Hrun as <- _. now apply fail_hashing with f.
    + destruct (insert_user (w_db w) _) as [f | [[|row rest] d']] eqn:Hins;
        simpl in Hrun.
      * injection Hrun as <- _. now apply fail_insert with h.
      * injection Hrun as <- _. now apply fail_no_row with h d'.
      * discriminate.
  - injection Hrun as <- _. now apply fail_duplicate with x xs.
Qed.

(** The [catch] block of [createUser] turns every failure of the [try] block
    into a new error made from its string conversion. *)
Lemma createUser_throws_inv
  (a : CreateUserArgs) (w w' : World Db) (e : JsError) :
  createUser a w = (Throw e, w') ->
  exists inner w1,
    createUser_try a w = (Throw inner, w1) /\
    e = Error (error_toString inner) /\
    w' = mkWorld (w_db w1)
           (w_trace w1 ++
              [EvLogError ("Error creating user: " +:+ error_toString inner)]).
Proof.
  unfold createUser, try_catch. intros Hrun.
  destruct (createUser_try a w) as [[u | inner] w1]; [discriminate|].
  unfold createUser_catch, bind, logger_error, emit, throw in Hrun.
  cbn [w_db w_trace] in Hrun. injection Hrun as <- <-. eauto.
Qed.

(** The record both operations return: five columns of the row. *)
Lemma returning_dom (r : UserRow) :
  dom (returning r)
  = ({[ "id"; "name"; "email"; "role"; "created_at" ]} : gset string).
Proof. reflexivity. Qed.

Lemma returning_password (r : UserRow) : returning r !! "password" = None.
Proof. reflexivity. Qed.

Lemma returning_updated_at (r : UserRow) :
  returning r !! "updated_at" = None.
Proof. reflexivity. Qed.

Lemma returning_role (r : UserRow) :
  returning r !! "role" = Some (JStr (u_role r)).
Proof. reflexivity. Qed.

Lemma returning_email (r : UserRow) :
  returning r !! "email" = Some (JStr (u_email r)).
Proof. reflexivity. Qed.

(** A successful [authenticateUser] found a row whose hash verifies. *)
Lemma authenticateUser_success_inv
  (c : Credentials) (w w' : World Db) (u : JsObject) :
  authenticateUser c w = (Return u, w') ->
  exists user rest,
    select_users_by_email (w_db w) (cred_email c) = inr (user :: rest) /\
    bcrypt_compare (cred_password c) (u_password user) = inr true /\
    u = returning user /\
    w_db w' = w_db w.
Proof.
  intros Hrun. unfold_service.
  destruct (select_users_by_email (w_db w) (cred_email c))
    as [f | [|user rest]] eqn:Hsel; simpl in Hrun; try discriminate.
  destruct (bcrypt_compare (cred_password c) (u_password user))
    as [f | [|]] eqn:Hcmp; simpl in Hrun; try discriminate.
  injection Hrun as <- <-. exists user, rest. auto.
Qed.

(** *** The shape of the returned record *)

(** C6: the record returned by a successful [createUser] and the record
    returned by a successful [authenticateUser] have no [password]
    property. *)
Theorem results_omit_password
  (a : CreateUserArgs) (c : Credentials) (w w' : World Db) (u : JsObject) :
  createUser a w = (Return u, w') \/ authenticateUser c w = (Return u, w') ->
  u !! "password" = None.
Proof.
  intros [Hrun | Hrun].
  - apply createUser_success_inv in Hrun
      as (h & row & rest & d' & _ & _ & _ & -> & _).
    apply returning_password.
  - apply authenticateUser_success_inv in Hrun
      as (user & rest & _ & _ & -> & _).
    apply returning_password.
Qed.

(** C10: the record returned by a successful [authenticateUser] has exactly
    the properties [id], [name], [email], [role] and [created_at], taken from
    the row found; [updated_at] is left out along with [password]. *)
Theorem authenticate_result_fields
  (c : Credentials) (w w' : World Db) (u : JsObject) :
  authenticateUser c w = (Return u, w') ->
  dom u = ({[ "id"; "name"; "email"; "role"; "created_at" ]} : gset string) /\
  u !! "updated_at" = None /\
  u !! "password" = None /\
  exists user rest,
    select_users_by_email (w_db w) (cred_email c) = inr (user :: rest) /\
    u !! "id" = Some (JNum (u_id user)) /\
    u !! "name" = Some (JStr (u_name user)) /\
    u !! "email" = Some (JStr (u_email user)) /\
    u !! "role" = Some (JStr (u_role user)) /\
    u !! "created_at" = Some (JDate (u_created_at user)).
Proof.
  intros Hrun.
  apply authenticateUser_success_inv in Hrun
    as (user & rest & Hsel & _ & -> & _).
  split; [apply returning_dom|].
  split; [apply returning_updated_at|].
  split; [apply returning_password|].
  exists user, rest. split; [exact Hsel|].
  repeat split.
Qed.

(** *** Role defaulting *)

(** C8: on a store that keeps what it is given, a successful [createUser]
    without a role stores and returns role ["user"], and one with role
    ["admin"] stores and returns role ["admin"]. *)
Theorem createUser_role
  (a : CreateUserArgs) (w w' : World Db) (u : JsObject) :
  StoreContract S ->
  createUser a w = (Return u, w') ->
  (arg_role a = None ->
   u !! "role" = Some (JStr "user") /\
   exists r, select_users_by_email (w_db w') (arg_email a) = inr [r] /\
             u = returning r /\ u_role r = "user") /\
  (arg_role a = Some "admin" ->
   u !! "role" = Some (JStr "admin") /\
   exists r, select_users_by_email (w_db w') (arg_email a) = inr [r] /\
             u = returning r /\ u_role r = "admin").
Proof.
  intros HS Hrun.
  apply createUser_success_inv in Hrun
    as (h & row & rest & d' & _ & _ & Hins & -> & ->).
  apply HS in Hins as (r & Hrs & _ & _ & _ & Hrole & Hsel).
  injection Hrs as -> ->. simpl in Hrole, Hsel. cbn [w_db].
  rewrite returning_role.
  split; intros Harg; rewrite Harg in Hrole; simpl in Hrole;
    (split; [now rewrite Hrole | exists r; auto]).
Qed.

(** *** Email handling *)

(** C1, as the code has it: [createUser] uses the email exactly as the caller
    passed it, for the duplicate lookup, for the insert and in the record it
    returns; on a store that keeps what it is given, a later
    [authenticateUser] with the identical email string and the same password
    returns that same account whenever the library verifies the password
    against the hash it produced. *)
Theorem createUser_email_verbatim
  (a : CreateUserArgs) (w w' : World Db) (u : JsObject) :
  StoreContract S ->
  createUser a w = (Return u, w') ->
  exists h,
    bcrypt_hash (arg_password a) 10 = inr h /\
    (exists msg,
       w_trace w' =
         w_trace w ++
           [EvSelect (arg_email a);
            EvHash (arg_password a) 10;
            EvInsert (mkNewUser (arg_name a) (arg_email a) h
                        (default "user" (arg_role a)));
            EvLogInfo msg]) /\
    u !! "email" = Some (JStr (arg_email a)) /\
    (bcrypt_compare (arg_password a) h = inr true ->
     fst (authenticateUser (mkCredentials (arg_email a) (arg_password a)) w')
     = Return u).
Proof.
  intros HS Hrun.
  apply createUser_success_inv in Hrun
    as (h & row & rest & d' & _ & Hh & Hins & -> & ->).
  apply HS in Hins as (r & Hrs & _ & Hemail & Hpw & _ & Hsel).
  injection Hrs as -> ->. simpl in Hemail, Hpw, Hsel.
  exists h. split; [exact Hh|]. split; [eauto|].
  split; [now rewrite returning_email, Hemail|].
  intros Hcmp. unfold_service. simpl. rewrite Hsel. simpl.
  rewrite Hpw, Hcmp. reflexivity.
Qed.

(** *** Errors of createUser *)

(** C2, as the code has it: every failure of [createUser] reaches the caller
    as a new error named ["Error"].  Its message is fixed for a duplicate, for
    a hashing failure (whatever the library raised) and for an insert that
    returned no row; for a store error raised by the lookup or the insert it
    is the string conversion of that store error. *)
Theorem createUser_failure_boundary
  (a : CreateUserArgs) (w w' : World Db) (e : JsError) :
  createUser a w = (Throw e, w') ->
  err_name e = "Error" /\
  ((err_message e = "Error: User with this email already exists" /\
    exists r rs,
      select_users_by_email (w_db w) (arg_email a) = inr (r :: rs))
   \/ (err_message e = "Error: Error hashing the password" /\
       exists f, bcrypt_hash (arg_password a) 10 = inl f)
   \/ (err_message e
       = "TypeError: Cannot read properties of undefined (reading 'email')" /\
       exists h d',
         insert_user (w_db w)
           (mkNewUser (arg_name a) (arg_email a) h
              (default "user" (arg_role a))) = inr ([], d'))
   \/ (exists f,
         err_message e = error_toString f /\
         (select_users_by_email (w_db w) (arg_email a) = inl f \/
          exists h,
            insert_user (w_db w)
              (mkNewUser (arg_name a) (arg_email a) h
                 (default "user" (arg_role a))) = inl f))).
Proof.
  intros Hrun.
  apply createUser_throws_inv in Hrun as (inner & w1 & Htry & -> & _).
  split; [reflexivity|].
  apply createUser_try_throws in Htry.
  destruct Htry as [f Hsel | r rs Hsel | f _ Hh | h f _ _ Hins | h d' _ _ Hins];
    cbn [err_message Error].
  - right; right; right. eauto.
  - left. eauto.
  - right; left. eauto.
  - right; right; right. eauto.
  - right; right; left. eauto.
Qed.

(** C9: whatever error [inner] the [try] block of [createUser] raises, the
    caller receives [new Error(inner)]: an error whose message is the string
    conversion of [inner], which for a named error is not [inner]'s own
    message.  The duplicate rejection goes through the same wrapping as store
    and hashing errors, so it arrives as
    ["Error: User with this email already exists"]. *)
Theorem createUser_rewraps_error
  (a : CreateUserArgs) (w : World Db) :
  (forall inner w1,
     createUser_try a w = (Throw inner, w1) ->
     fst (createUser a w) = Throw (Error (error_toString inner)) /\
     (err_name inner ≠ "" -> error_toString inner ≠ err_message inner)) /\
  (forall e w',
     createUser a w = (Throw e, w') ->
     exists inner w1,
       createUser_try a w = (Throw inner, w1) /\
       createUser_failure a (w_db w) inner /\
       e = Error (error_toString inner)) /\
  (forall r rs,
     select_users_by_email (w_db w) (arg_email a) = inr (r :: rs) ->
     fst (createUser_try a w)
       = Throw (Error "User with this email already exists") /\
     fst (createUser a w)
       = Throw (Error "Error: User with this email already exists")).
Proof.
  split; [|split].
  - intros inner w1 Htry. split.
    + unfold createUser, try_catch. rewrite Htry. reflexivity.
    + apply error_toString_not_message.
  - intros e w' Hrun.
    apply createUser_throws_inv in Hrun as (inner & w1 & Htry & -> & _).
    exists inner, w1. split; [exact Htry|].
    split; [now apply createUser_try_throws in Htry | reflexivity].
  - intros r rs Hsel. unfold_service. rewrite Hsel. simpl. auto.
Qed.

End Properties.

(** ** The properties on concrete runs *)

(** The scenario of the specification: John signs up, a second sign-up is
    rejected, the right password is accepted and a wrong one is not. *)
Example scenario_john :
  fst (run_create mem_store plain_bcrypt john fresh_world)
    = Return (returning john_row) /\
  w_db (snd (run_create mem_store plain_bcrypt john fresh_world))
    = w_db john_world /\
  fst (run_create mem_store plain_bcrypt john john_world)
    = Throw (Error "Error: User with this email already exists") /\
  fst (run_auth mem_store plain_bcrypt john_credentials john_world)
    = Return (returning john_row) /\
  fst (run_auth mem_store plain_bcrypt
         (mkCredentials "john@example.com" "wrong") john_world)
    = Throw (Error "Invalid email or password").
Proof. repeat split. Qed.

Lemma createUser_duplicate_untouched_witness :
  select_users_by_email (Store:=mem_store) (w_db john_world) (arg_email john)
    = inr [john_row] /\
  exists e w',
    run_create mem_store plain_bcrypt john john_world = (Throw e, w') /\
    w_db w' = w_db john_world /\
    hash_calls (w_trace w') = hash_calls (w_trace john_world) /\
    insert_calls (w_trace w') = insert_calls (w_trace john_world) /\
    w_trace w' =
      w_trace john_world ++
        [EvSelect (arg_email john);
         EvLogError
           "Error creating user: Error: User with this email already exists"].
Proof.
  split; [reflexivity|].
  apply (createUser_duplicate_untouched mem_store plain_bcrypt
           john john_world john_row []).
  reflexivity.
Defined.

Lemma authenticate_failures_indistinguishable_witness :
  fst (run_auth mem_store plain_bcrypt
         (mkCredentials "nobody@example.com" "securePass123") john_world)
    = Throw (Error "Invalid email or password") /\
  fst (run_auth mem_store plain_bcrypt
         (mkCredentials "john@example.com" "wrong") john_world)
    = Throw (Error "Invalid email or password") /\
  fst (run_auth mem_store plain_bcrypt
         (mkCredentials "nobody@example.com" "securePass123") john_world)
    = fst (run_auth mem_store plain_bcrypt
             (mkCredentials "john@example.com" "wrong") john_world).
Proof.
  apply (authenticate_failures_indistinguishable mem_store plain_bcrypt
           john_world "nobody@example.com" "securePass123"
           "john@example.com" "wrong" john_row []);
    reflexivity.
Defined.

Lemma results_omit_password_witness :
  fst (run_create mem_store plain_bcrypt john fresh_world)
    = Return (returning john_row) /\
  fst (run_auth mem_store plain_bcrypt john_credentials john_world)
    = Return (returning john_row) /\
  returning john_row !! "password" = None.
Proof.
  split; [reflexivity|]. split; [reflexivity|].
  apply (results_omit_password mem_store plain_bcrypt john john_credentials
           fresh_world
           (snd (run_create mem_store plain_bcrypt john fresh_world))
           (returning john_row)).
  left. reflexivity.
Defined.

Lemma authenticate_result_fields_witness :
  let u := returning john_row in
  run_auth mem_store plain_bcrypt john_credentials john_world
    = (Return u,
       snd (run_auth mem_store plain_bcrypt john_credentials john_world)) /\
  dom u = ({[ "id"; "name"; "email"; "role"; "created_at" ]} : gset string) /\
  u !! "updated_at" = None.
Proof.
  split; [reflexivity|].
  pose proof (authenticate_result_fields mem_store plain_bcrypt
                john_credentials john_world
                (snd (run_auth mem_store plain_bcrypt
                        john_credentials john_world))
                (returning john_row) eq_refl) as (Hdom & Hupd & _).
  split; [exact Hdom | exact Hupd].
Defined.

Lemma createUser_role_witness :
  (returning john_row !! "role" = Some (JStr "user") /\
   exists r,
     select_users_by_email (Store:=mem_store)
       (w_db (snd (run_create mem_store plain_bcrypt john fresh_world)))
       (arg_email john) = inr [r] /\
     returning john_row = returning r /\ u_role r = "user") /\
  (returning ada_row !! "role" = Some (JStr "admin") /\
   exists r,
     select_users_by_email (Store:=mem_store)
       (w_db (snd (run_create mem_store plain_bcrypt ada fresh_world)))
       (arg_email ada) = inr [r] /\
     returning ada_row = returning r /\ u_role r = "admin").
Proof.
  split.
  - apply (createUser_role mem_store plain_bcrypt john fresh_world
             (snd (run_create mem_store plain_bcrypt john fresh_world))
             (returning john_row) mem_store_contract eq_refl).
    reflexivity.
  - apply (createUser_role mem_store plain_bcrypt ada fresh_world
             (snd (run_create mem_store plain_bcrypt ada fresh_world))
             (returning ada_row) mem_store_contract eq_refl).
    reflexivity.
Defined.

Lemma createUser_email_verbatim_witness :
  StoreContract mem_store /\
  run_create mem_store plain_bcrypt foo fresh_world
    = (Return (returning (mkUserRow 1 "Foo" "Foo@Bar.com " (digest "secret99")
                            "user" 1000 1000)),
       snd (run_create mem_store plain_bcrypt foo fresh_world)) /\
  exists h,
    bcrypt_hash (Bcrypt:=plain_bcrypt) "secret99" 10 = inr h /\
    (exists msg,
       w_trace (snd (run_create mem_store plain_bcrypt foo fresh_world)) =
         [] ++
           [EvSelect "Foo@Bar.com ";
            EvHash "secret99" 10;
            EvInsert (mkNewUser "Foo" "Foo@Bar.com " h "user");
            EvLogInfo msg]) /\
    returning (mkUserRow 1 "Foo" "Foo@Bar.com " (digest "secret99")
                 "user" 1000 1000) !! "email"
      = Some (JStr "Foo@Bar.com ") /\
    (bcrypt_compare (Bcrypt:=plain_bcrypt) "secret99" h = inr true ->
     fst (run_auth mem_store plain_bcrypt
            (mkCredentials "Foo@Bar.com " "secret99")
            (snd (run_create mem_store plain_bcrypt foo fresh_world)))
     = Return (returning (mkUserRow 1 "Foo" "Foo@Bar.com " (digest "secret99")
                            "user" 1000 1000))).
Proof.
  split; [exact mem_store_contract|]. split; [reflexivity|].
  apply (createUser_email_verbatim mem_store plain_bcrypt foo fresh_world
           (snd (run_create mem_store plain_bcrypt foo fresh_world))
           (returning (mkUserRow 1 "Foo" "Foo@Bar.com " (digest "secret99")
                         "user" 1000 1000))
           mem_store_contract eq_refl).
Defined.

(** C1 fails on the code: an account created with ["Foo@Bar.com "] is stored
    under that very string, and [authenticateUser] with ["foo@bar.com"] and
    the right password finds no such account. *)
Lemma createUser_does_not_normalize :
  fst (run_create mem_store plain_bcrypt foo fresh_world)
    = Return (returning (mkUserRow 1 "Foo" "Foo@Bar.com " (digest "secret99")
                           "user" 1000 1000)) /\
  map u_email
    (rows (w_db (snd (run_create mem_store plain_bcrypt foo fresh_world))))
    = ["Foo@Bar.com "] /\
  fst (run_auth mem_store plain_bcrypt
         (mkCredentials "foo@bar.com" "secret99")
         (snd (run_create mem_store plain_bcrypt foo fresh_world)))
    = Throw (Error "Invalid email or password").
Proof. repeat split. Qed.

Lemma createUser_failure_boundary_witness :
  run_create (insert_failing lost_connection) plain_bcrypt john fresh_world
    = (Throw (Error "StoreError: connection terminated unexpectedly"),
       snd (run_create (insert_failing lost_connection) plain_bcrypt
              john fresh_world)) /\
  err_name (Error "StoreError: connection terminated unexpectedly")
    = "Error".
Proof.
  split; [reflexivity|].
  exact (proj1
           (createUser_failure_boundary (insert_failing lost_connection)
              plain_bcrypt john fresh_world
              (snd (run_create (insert_failing lost_connection) plain_bcrypt
                      john fresh_world))
              (Error "StoreError: connection terminated unexpectedly")
              eq_refl)).
Defined.

(** C2 fails on the code: when the insert is rejected by the store, the
    caller receives an error whose message spells out the store's own error,
    so two different store errors are told apart by the caller. *)
Lemma createUser_store_error_crosses :
  fst (run_create (insert_failing lost_connection) plain_bcrypt
         john fresh_world)
    = Throw (Error (error_toString lost_connection)) /\
  error_toString lost_connection
    = "StoreError: connection terminated unexpectedly" /\
  fst (run_create (insert_failing unique_violation) plain_bcrypt
         john fresh_world)
    = Throw (Error
               "StoreError: duplicate key value violates unique constraint") /\
  fst (run_create (insert_failing lost_connection) plain_bcrypt
         john fresh_world)
    ≠ fst (run_create (insert_failing unique_violation) plain_bcrypt
             john fresh_world).
Proof. repeat split. discriminate. Qed.

(** C3 fails on the code: when the hashing library fails during the
    comparison, [authenticateUser] neither returns a user nor fails with the
    invalid-credentials error; a failing lookup likewise reaches the caller as
    the store's own error. *)
Lemma authenticate_other_errors_reach_caller :
  fst (run_auth mem_store (failing_bcrypt library_fault)
         john_credentials john_world)
    = Throw (Error "Error comparing passwords") /\
  fst (run_auth mem_store (failing_bcrypt library_fault)
         john_credentials john_world)
    ≠ Throw (Error "Invalid email or password") /\
  fst (run_auth (store_down lost_connection) plain_bcrypt
         john_credentials john_world)
    = Throw lost_connection.
Proof. repeat split. discriminate. Qed.

Lemma createUser_rewraps_error_witness :
  select_users_by_email (Store:=mem_store) (w_db john_world) (arg_email john)
    = inr [john_row] /\
  fst (createUser_try (S:=mem_store) (B:=plain_bcrypt) john john_world)
    = Throw (Error "User with this email already exists") /\
  fst (run_create mem_store plain_bcrypt john john_world)
    = Throw (Error "Error: User with this email already exists").
Proof.
  split; [reflexivity|].
  exact (proj2 (proj2 (createUser_rewraps_error mem_store plain_bcrypt
                         john john_world))
           john_row [] eq_refl).
Defined.

(** ** Conduct of the operations towards their collaborators *)

Section Conduct.
Context {Db : Type} (S : Store Db) (B : Bcrypt).



(** A successful [createUser] made exactly one hash call and exactly one
    insert.  The inserted values are the caller's name and email unchanged,
    the hash the library returned in place of the password, and the role or
    ["user"]; the store afterwards is the one that insert produced, and the
    record returned is the projection of the first row it returned. *)
Theorem createUser_success_effects
  (a : CreateUserArgs) (w w' : World Db) (u : JsObject) :
  createUser a w = (Return u, w') ->
  exists h row rest,
    bcrypt_hash (arg_password a) 10 = inr h /\
    List.filter is_hash (new_events w w') = [EvHash (arg_password a) 10] /\
    List.filter is_insert (new_events w w')
    = [EvInsert (mkNewUser (arg_name a) (arg_email a) h
                   (default "user" (arg_role a)))] /\
    insert_user (w_db w)
      (mkNewUser (arg_name a) (arg_email a) h (default "user" (arg_role a)))
    = inr (row :: rest, w_db w') /\
    u = returning row.
Proof.
  intros Hrun.
  apply (createUser_success_inv S B) in Hrun
    as (h & row & rest & d' & _ & Hh & Hins & -> & ->).
  exists h, row, rest. settle_trace. auto.
Qed.

(** Whatever the outcome, [createUser] issues an insert only after an empty
    lookup and a successful hash, and the values of that insert carry the
    library's hash, never the plaintext the caller passed (unless the library
    itself returns it). *)
Theorem createUser_insert_guarded
  (a : CreateUserArgs) (w : World Db) (v : NewUser) :
  In (EvInsert v) (new_events w (snd (createUser a w))) ->
  select_users_by_email (w_db w) (arg_email a) = inr [] /\
  bcrypt_hash (arg_password a) 10 = inr (v_password v) /\
  v_name v = arg_name a /\
  v_email v = arg_email a /\
  v_role v = default "user" (arg_role a).
Proof.
  unfold_service.
  destruct (select_users_by_email (w_db w) (arg_email a))
    as [f | [|x xs]] eqn:Hsel; settle_trace.
  - simpl. intros [H | [H | []]]; discriminate.
  - destruct (bcrypt_hash (arg_password a) 10) as [f | h] eqn:Hh;
      settle_trace.
    + simpl. intros [H | [H | [H | [H | []]]]]; discriminate.
    + destruct (insert_user (w_db w) _) as [f | [[|row rest] d']] eqn:Hins;
        settle_trace; simpl;
        intros [H | [H | [H | [H | []]]]]; try discriminate;
        injection H as <-; auto.
  - simpl. intros [H | [H | []]]; discriminate.
Qed.

(** [createUser] makes at most one hash call and at most one insert, and it
    changes the store through that insert alone: the store after the call is
    the store before it, or the one a successful insert returned. *)
Theorem createUser_store_change (a : CreateUserArgs) (w : World Db) :
  let w' := snd (createUser a w) in
  (hash_calls (new_events w w') <= 1)%nat /\
  (insert_calls (new_events w w') <= 1)%nat /\
  (w_db w' = w_db w \/
   exists v rs,
     In (EvInsert v) (new_events w w') /\
     insert_user (w_db w) v = inr (rs, w_db w')) /\
  (forall r rs,
     select_users_by_email (w_db w) (arg_email a) = inr (r :: rs) ->
     w_db w' = w_db w) /\
  (forall f, bcrypt_hash (arg_password a) 10 = inl f -> w_db w' = w_db w).
Proof.
  unfold hash_calls, insert_calls. unfold_service.
  destruct (select_users_by_email (w_db w) (arg_email a))
    as [f | [|x xs]] eqn:Hsel; settle_trace;
    try (repeat split; auto; lia).
  destruct (bcrypt_hash (arg_password a) 10) as [f | h] eqn:Hh;
    settle_trace; try (repeat split; auto; lia).
  destruct (insert_user (w_db w) _) as [f | [[|row rest] d']] eqn:Hins;
    settle_trace;
    (split; [lia|]; split; [lia|]; split;
     [|split; [intros; discriminate | intros; discriminate]]).
  - left; reflexivity.
  - right. eexists _, _. split; [|exact Hins]. simpl; auto.
  - right. eexists _, _. split; [|exact Hins]. simpl; auto.
Qed.

(** [authenticateUser] only reads: whatever the outcome, the store is the one
    it started with, and no hash and no insert is issued. *)
Theorem authenticateUser_read_only (c : Credentials) (w : World Db) :
  let w' := snd (authenticateUser c w) in
  w_db w' = w_db w /\
  List.filter is_insert (new_events w w') = [] /\
  List.filter is_hash (new_events w w') = [] /\
  exists rest, new_events w w' = EvSelect (cred_email c) :: rest.
Proof.
  unfold_service.
  destruct (select_users_by_email (w_db w) (cred_email c))
    as [f | [|user rest]] eqn:Hsel; settle_trace; eauto.
  destruct (bcrypt_compare (cred_password c) (u_password user))
    as [f | [|]] eqn:Hcmp; settle_trace; eauto.
Qed.

(** [authenticateUser] consults the hashing library only when the lookup
    found a row: then it makes one comparison, of the supplied password
    against the hash stored in the first row; when the lookup fails or finds
    nothing it makes none. *)
Theorem authenticateUser_compare_discipline (c : Credentials) (w : World Db) :
  List.filter is_compare (new_events w (snd (authenticateUser c w)))
  = match select_users_by_email (w_db w) (cred_email c) with
    | inr (user :: _) => [EvCompare (cred_password c) (u_password user)]
    | _ => []
    end.
Proof.
  unfold_service.
  destruct (select_users_by_email (w_db w) (cred_email c))
    as [f | [|user rest]] eqn:Hsel; settle_trace; try reflexivity.
  destruct (bcrypt_compare (cred_password c) (u_password user))
    as [f | [|]] eqn:Hcmp; settle_trace; reflexivity.
Qed.

(** The last thing [authenticateUser] does is write a log line that matches
    its outcome: on success an info line naming the email of the returned
    record, on failure an error line carrying the message of the very error it
    rethrows. *)
Theorem authenticateUser_logs_outcome (c : Credentials) (w : World Db) :
  let w' := snd (authenticateUser c w) in
  match fst (authenticateUser c w) with
  | Return u =>
      exists email,
        u !! "email" = Some (JStr email) /\
        last (new_events w w')
        = Some (EvLogInfo
                  ("User " +:+ email +:+ " authenticated successfully."))
  | Throw e =>
      last (new_events w w')
      = Some (EvLogError ("Error authenticating user: " +:+ err_message e))
  end.
Proof.
  unfold_service.
  destruct (select_users_by_email (w_db w) (cred_email c))
    as [f | [|user rest]] eqn:Hsel; settle_trace; try reflexivity.
  destruct (bcrypt_compare (cred_password c) (u_password user))
    as [f | [|]] eqn:Hcmp; settle_trace; try reflexivity.
  exists (u_email user). split; reflexivity.
Qed.

(** The last thing [createUser] does is write a log line that matches its
    outcome: on success an info line naming the email of the returned record,
    on failure an error line whose text after the prefix is exactly the
    message of the error delivered to the caller. *)
Theorem createUser_logs_outcome (a : CreateUserArgs) (w : World Db) :
  let w' := snd (createUser a w) in
  match fst (createUser a w) with
  | Return u =>
      exists email,
        u !! "email" = Some (JStr email) /\
        last (new_events w w')
        = Some (EvLogInfo ("User " +:+ email +:+ " created successfully."))
  | Throw e =>
      last (new_events w w')
      = Some (EvLogError ("Error creating user: " +:+ err_message e))
  end.
Proof.
  unfold_service.
  destruct (select_users_by_email (w_db w) (arg_email a))
    as [f | [|x xs]] eqn:Hsel; settle_trace; try reflexivity.
  destruct (bcrypt_hash (arg_password a) 10) as [f | h] eqn:Hh;
    settle_trace; try reflexivity.
  destruct (insert_user (w_db w) _) as [f | [[|row rest] d']] eqn:Hins;
    settle_trace; try reflexivity.
  exists (u_email row). split; reflexivity.
Qed.

(** On a store that keeps what it is given, a sign-up that follows a
    successful one with the same email string is rejected as a duplicate,
    whatever its other arguments, without hashing and without changing the
    store. *)
Theorem createUser_twice_rejected
  (a a' : CreateUserArgs) (w w' : World Db) (u : JsObject) :
  StoreContract S ->
  createUser a w = (Return u, w') ->
  arg_email a' = arg_email a ->
  fst (createUser a' w')
    = Throw (Error "Error: User with this email already exists") /\
  w_db (snd (createUser a' w')) = w_db w' /\
  List.filter is_hash (new_events w' (snd (createUser a' w'))) = [].
Proof.
  intros HS Hrun Hemail.
  apply (createUser_success_inv S B) in Hrun
    as (h & row & rest & d' & _ & _ & Hins & _ & Hw').
  apply HS in Hins as (r & _ & _ & _ & _ & _ & Hsel). simpl in Hsel.
  assert (Hfound : select_users_by_email (w_db w') (arg_email a) = inr [r])
    by (rewrite Hw'; exact Hsel).
  clear Hw' Hsel.
  unfold_service. rewrite Hemail, Hfound. settle_trace. auto.
Qed.

(** [createUser] succeeds exactly when the lookup comes back empty, the
    library produces a hash and the insert of the values built from it
    returns at least one row. *)
Theorem createUser_succeeds_iff (a : CreateUserArgs) (w : World Db) :
  (exists u, fst (createUser a w) = Return u) <->
  (select_users_by_email (w_db w) (arg_email a) = inr [] /\
   exists h row rest d',
     bcrypt_hash (arg_password a) 10 = inr h /\
     insert_user (w_db w)
       (mkNewUser (arg_name a) (arg_email a) h (default "user" (arg_role a)))
     = inr (row :: rest, d')).
Proof.
  split.
  - intros [u Hu].
    destruct (createUser a w) as [out w'] eqn:Hrun. simpl in Hu. subst out.
    apply (createUser_success_inv S B) in Hrun
      as (h & row & rest & d' & Hsel & Hh & Hins & _ & _).
    eauto 8.
  - intros (Hsel & h & row & rest & d' & Hh & Hins).
    exists (returning row). unfold_service.
    rewrite Hsel. simpl. rewrite Hh. simpl. rewrite Hins. reflexivity.
Qed.

End Conduct.

(** ** The request-protection options *)

(** In every environment the options carry the shield rule in [LIVE] mode and
    one bot-detection rule with the three allowed categories, and no
    rate-limiting rule.  Bot detection is enforced ([LIVE]) exactly when
    [NODE_ENV] is the string ["production"]; with any other value, or with
    the variable unset, it only reports ([DRY_RUN]). *)
Theorem aj_rules_by_environment (env : ProcessEnv) :
  In (shield LIVE) (aj_rules (aj env)) /\
  List.filter is_rate_limit (aj_rules (aj env)) = [] /\
  (forall m allow,
     In (detectBot m allow) (aj_rules (aj env)) ->
     (m = LIVE <-> NODE_ENV env = Some "production") /\
     (m = DRY_RUN <-> NODE_ENV env ≠ Some "production") /\
     allow
     = ["CATEGORY:SEARCH_ENGINE"; "CATEGORY:PREVIEW"; "CATEGORY:MONITOR"]) /\
  (exists m allow, In (detectBot m allow) (aj_rules (aj env))) /\
  aj_key (aj env) = ARCJET_KEY env.
Proof.
  destruct env as [key [ne|]]; cbn [aj aj_rules aj_key NODE_ENV ARCJET_KEY
    strict_eq_string List.filter is_rate_limit].
  - destruct (String.eqb_spec ne "production") as [-> | Hne].
    + split; [left; reflexivity|]. split; [reflexivity|].
      split; [|split; [eexists _, _; right; left; reflexivity | reflexivity]].
      intros m allow [H | [H | []]]; [discriminate|].
      injection H as <- <-. repeat split; congruence.
    + split; [left; reflexivity|]. split; [reflexivity|].
      split; [|split; [eexists _, _; right; left; reflexivity | reflexivity]].
      intros m allow [H | [H | []]]; [discriminate|].
      injection H as <- <-. repeat split; congruence.
  - split; [left; reflexivity|]. split; [reflexivity|].
    split; [|split; [eexists _, _; right; left; reflexivity | reflexivity]].
    intros m allow [H | [H | []]]; [discriminate|].
    injection H as <- <-. repeat split; congruence.
Qed.

(** ** Conduct on concrete runs *)

Lemma createUser_success_effects_witness :
  run_create mem_store plain_bcrypt ada fresh_world
    = (Return (returning ada_row),
       snd (run_create mem_store plain_bcrypt ada fresh_world)) /\
  exists h row rest,
    bcrypt_hash (Bcrypt:=plain_bcrypt) (arg_password ada) 10 = inr h /\
    List.filter is_hash
      (new_events fresh_world
         (snd (run_create mem_store plain_bcrypt ada fresh_world)))
    = [EvHash (arg_password ada) 10] /\
    List.filter is_insert
      (new_events fresh_world
         (snd (run_create mem_store plain_bcrypt ada fresh_world)))
    = [EvInsert (mkNewUser (arg_name ada) (arg_email ada) h
                   (default "user" (arg_role ada)))] /\
    insert_user (Store:=mem_store) (w_db fresh_world)
      (mkNewUser (arg_name ada) (arg_email ada) h
         (default "user" (arg_role ada)))
    = inr (row :: rest,
           w_db (snd (run_create mem_store plain_bcrypt ada fresh_world))) /\
    returning ada_row = returning row.
Proof.
  split; [reflexivity|].
  apply (createUser_success_effects mem_store plain_bcrypt ada fresh_world
           (snd (run_create mem_store plain_bcrypt ada fresh_world))
           (returning ada_row)).
  reflexivity.
Defined.

Lemma createUser_insert_guarded_witness :
  let v := mkNewUser "John Doe" "john@example.com" (digest "securePass123")
             "user" in
  In (EvInsert v)
    (new_events fresh_world
       (snd (run_create mem_store plain_bcrypt john fresh_world))) /\
  select_users_by_email (Store:=mem_store) (w_db fresh_world)
    (arg_email john) = inr [] /\
  bcrypt_hash (Bcrypt:=plain_bcrypt) (arg_password john) 10
    = inr (v_password v) /\
  v_name v = arg_name john /\
  v_email v = arg_email john /\
  v_role v = default "user" (arg_role john).
Proof.
  assert (Hin : In (EvInsert
                      (mkNewUser "John Doe" "john@example.com"
                         (digest "securePass123") "user"))
                  (new_events fresh_world
                     (snd (run_create mem_store plain_bcrypt
                             john fresh_world)))).
  { right; right; left; reflexivity. }
  split; [exact Hin|].
  exact (createUser_insert_guarded mem_store plain_bcrypt john fresh_world
           _ Hin).
Defined.

Lemma createUser_twice_rejected_witness :
  StoreContract mem_store /\
  run_create mem_store plain_bcrypt john fresh_world
    = (Return (returning john_row),
       snd (run_create mem_store plain_bcrypt john fresh_world)) /\
  fst (run_create mem_store plain_bcrypt
         (mkCreateUserArgs "Johnny" "john@example.com" "another1"
            (Some "admin"))
         (snd (run_create mem_store plain_bcrypt john fresh_world)))
    = Throw (Error "Error: User with this email already exists").
Proof.
  split; [exact mem_store_contract|]. split; [reflexivity|].
  exact (proj1
           (createUser_twice_rejected mem_store plain_bcrypt john
              (mkCreateUserArgs "Johnny" "john@example.com" "another1"
                 (Some "admin"))
              fresh_world
              (snd (run_create mem_store plain_bcrypt john fresh_world))
              (returning john_row) mem_store_contract eq_refl eq_refl)).
Defined.
